(** * ngx-dnd: the AbstractDirective base class

    A shallow embedding of
    [projects/beyerleinf/ngx-dnd/src/lib/directives/abstract/abstract.directive.ts]
    and the properties of its event handlers and of the drop filter
    [isDropAllowed].

    The class is stateful: its handlers read and write the directive's own
    fields, the shared [DragDropService], the DOM and the event object they
    are given.  These live in one [State] record that is threaded through a
    small state-and-exception monad. *)

From stdpp Require Import gmap strings list fin_maps.
From Stdlib Require Import ZArith.

Open Scope string_scope.
Open Scope list_scope.
Open Scope stdpp_scope.

(** ** Values of the host environment *)

(** DOM elements are referred to by identity. *)
Definition node := nat.

(** The payload of a drag ([dragData: any]). *)
Inductive JsValue :=
| JsUndefined
| JsNull
| JsBool (b : bool)
| JsNumber (z : Z)
| JsString (s : string).

(** The part of the DOM the class touches: the parent of each attached
    element, and the [style.cursor] and [draggable] properties. *)
Record Dom := {
  parentOf : gmap node node;
  cursorOf : gmap node string;
  draggableOf : gmap node bool
}.

(** [DataTransfer]: the drop effect, the file list (absent when the
    property is not there; an empty list is still an object, hence truthy)
    and the data store, keyed by format. *)
Record DataTransfer := {
  dropEffect : string;
  files : option (list string);
  data : gmap string string
}.

(** The event object a handler receives: a DOM [Event], as the handlers'
    signatures say, with its target and its two flags; an event that is
    not a [DragEvent], or a synthetic one, has no [dataTransfer]. *)
Record Event := {
  evTarget : option node;
  dataTransfer : option DataTransfer;
  defaultPrevented : bool;
  propagationStopped : bool
}.

(** Modelled from the spec: the configuration object [DragDropConfig]
    (config/drag-drop-config), of which the class reads [defaultCursor]
    and [dropEffect.name]. *)
Record DragDropConfig := {
  cfgDefaultCursor : string;
  cfgDropEffectName : string
}.

(** Modelled from the spec: the shared session [DragDropService]
    (service/drag-drop/drag-drop.service): whether a drag is active, the
    payload, and the zones eligible to receive it. *)
Record DragDropService := {
  isDragged : bool;
  dragData : JsValue;
  allowedDropZones : list string
}.

(** The change detector handed to the constructor, seen as a [ViewRef]:
    whether the view is destroyed, and how often it was refreshed. *)
Record ViewRef := {
  destroyed : bool;
  refreshes : nat
}.

(** ** The fields of the class *)

Record AbstractDirective := {
  element : node;
  _dragHandle : option node;
  dragHelper : option node;
  defaultCursor : string;
  target : option node;
  _dragEnabled : bool;
  dropEnabled : bool;
  effectAllowed : option string;
  effectCursor : option string;
  dropZones : list string;
  allowDrop : option (JsValue -> bool);
  cloneItem : bool;
  config : DragDropConfig
}.

(** The six overridable hooks. *)
Inductive Hook :=
| DragEnterCallback
| DragOverCallback
| DragLeaveCallback
| DropCallback
| DragStartCallback
| DragEndCallback.

(** The one closure the class hands to [setTimeout]. *)
Inductive Task := RefreshTask.

Record Timer := {
  due : nat;
  task : Task
}.

(** What leaves the class, in order: a hook called with the event as it is
    at the call, and a task given to [setTimeout] with its delay. *)
Inductive Call :=
| Called (h : Hook) (e : Event)
| Scheduled (t : Task) (delay : nat).

(** ** The state the handlers run in *)

Record State := {
  this : AbstractDirective;
  dragDropService : DragDropService;
  document : Dom;
  cdr : option ViewRef;
  event : Event;
  clock : nat;
  timers : list Timer;
  calls : list Call
}.

Inductive Exn :=
| NotFoundError
| ViewDestroyedError.

Inductive Res (A : Type) :=
| Done (a : A) (s : State)
| Throw (e : Exn) (s : State).
Arguments Done {A} a s.
Arguments Throw {A} e s.

Definition M (A : Type) := State -> Res A.

Definition ret {A} (a : A) : M A := fun s => Done a s.

Definition bind {A B} (m : M A) (k : A -> M B) : M B :=
  fun s => match m s with
           | Done a s' => k a s'
           | Throw e s' => Throw e s'
           end.

Definition throw {A} (e : Exn) : M A := fun s => Throw e s.
Definition gets {A} (f : State -> A) : M A := fun s => Done (f s) s.
Definition modify (f : State -> State) : M unit := fun s => Done tt (f s).

Notation "x <- m ;; k" := (bind m (fun x => k))
  (at level 100, m at next level, right associativity).
Notation "m ;;; k" := (bind m (fun _ => k))
  (at level 100, k at level 200, right associativity).

Definition when (b : bool) (m : M unit) : M unit := if b then m else ret tt.

(** The state a computation ends in, whether it returned or threw. *)
Definition final {A} (r : Res A) : State :=
  match r with Done _ s => s | Throw _ s => s end.

(** *** Field updates *)

Definition set_this (d : AbstractDirective) (s : State) : State :=
  {| this := d; dragDropService := dragDropService s; document := document s;
     cdr := cdr s; event := event s; clock := clock s; timers := timers s;
     calls := calls s |}.

Definition set_dragDropService (v : DragDropService) (s : State) : State :=
  {| this := this s; dragDropService := v; document := document s;
     cdr := cdr s; event := event s; clock := clock s; timers := timers s;
     calls := calls s |}.

Definition set_document (d : Dom) (s : State) : State :=
  {| this := this s; dragDropService := dragDropService s; document := d;
     cdr := cdr s; event := event s; clock := clock s; timers := timers s;
     calls := calls s |}.

Definition set_cdr (v : option ViewRef) (s : State) : State :=
  {| this := this s; dragDropService := dragDropService s;
     document := document s; cdr := v; event := event s; clock := clock s;
     timers := timers s; calls := calls s |}.

Definition set_event (e : Event) (s : State) : State :=
  {| this := this s; dragDropService := dragDropService s;
     document := document s; cdr := cdr s; event := e; clock := clock s;
     timers := timers s; calls := calls s |}.

Definition set_clock (n : nat) (s : State) : State :=
  {| this := this s; dragDropService := dragDropService s;
     document := document s; cdr := cdr s; event := event s; clock := n;
     timers := timers s; calls := calls s |}.

Definition set_timers (l : list Timer) (s : State) : State :=
  {| this := this s; dragDropService := dragDropService s;
     document := document s; cdr := cdr s; event := event s; clock := clock s;
     timers := l; calls := calls s |}.

Definition set_calls (l : list Call) (s : State) : State :=
  {| this := this s; dragDropService := dragDropService s;
     document := document s; cdr := cdr s; event := event s; clock := clock s;
     timers := timers s; calls := l |}.

Definition set_allowedDropZones (z : list string) (v : DragDropService)
  : DragDropService :=
  {| isDragged := isDragged v; dragData := dragData v; allowedDropZones := z |}.

Definition set_target (t : option node) (d : AbstractDirective)
  : AbstractDirective :=
  {| element := element d; _dragHandle := _dragHandle d;
     dragHelper := dragHelper d; defaultCursor := defaultCursor d;
     target := t; _dragEnabled := _dragEnabled d; dropEnabled := dropEnabled d;
     effectAllowed := effectAllowed d; effectCursor := effectCursor d;
     dropZones := dropZones d; allowDrop := allowDrop d;
     cloneItem := cloneItem d; config := config d |}.

Definition set__dragEnabled (b : bool) (d : AbstractDirective)
  : AbstractDirective :=
  {| element := element d; _dragHandle := _dragHandle d;
     dragHelper := dragHelper d; defaultCursor := defaultCursor d;
     target := target d; _dragEnabled := b; dropEnabled := dropEnabled d;
     effectAllowed := effectAllowed d; effectCursor := effectCursor d;
     dropZones := dropZones d; allowDrop := allowDrop d;
     cloneItem := cloneItem d; config := config d |}.

Definition set__dragHandle (h : option node) (d : AbstractDirective)
  : AbstractDirective :=
  {| element := element d; _dragHandle := h;
     dragHelper := dragHelper d; defaultCursor := defaultCursor d;
     target := target d; _dragEnabled := _dragEnabled d;
     dropEnabled := dropEnabled d;
     effectAllowed := effectAllowed d; effectCursor := effectCursor d;
     dropZones := dropZones d; allowDrop := allowDrop d;
     cloneItem := cloneItem d; config := config d |}.

(** ** The host's operations *)

(** Modelled from the spec: [isPresent] of [../../util]: the value is set,
    that is neither [undefined] nor [null]. *)
Definition isPresent {A} (o : option A) : bool :=
  match o with Some _ => true | None => false end.

(** JavaScript truthiness of an object reference. *)
Definition truthy {A} (o : option A) : bool :=
  match o with Some _ => true | None => false end.

Module DOM.

Definition parentElement (d : Dom) (n : node) : option node :=
  parentOf d !! n.

(** [a.contains(b)]: [b] is [a] or a descendant of it.  A chain of
    parents has no more links than the parent map has entries. *)
Fixpoint containsWithin (fuel : nat) (d : Dom) (a b : node) : bool :=
  if decide (a = b) then true
  else match fuel with
       | O => false
       | S fuel' =>
           match parentElement d b with
           | Some p => containsWithin fuel' d a p
           | None => false
           end
       end.

Definition contains (d : Dom) (a : node) (b : option node) : bool :=
  match b with
  | Some b => containsWithin (size (parentOf d)) d a b
  | None => false
  end.

(** [parent.removeChild(child)]: throws [NotFoundError] unless [child]
    is a child of [parent]. *)
Definition removeChild (parent child : node) : M unit :=
  fun s =>
    let d := document s in
    if decide (parentElement d child = Some parent) then
      Done tt (set_document
                 {| parentOf := delete child (parentOf d);
                    cursorOf := cursorOf d;
                    draggableOf := draggableOf d |} s)
    else Throw NotFoundError s.

Definition setCursor (n : node) (c : string) : M unit :=
  modify (fun s =>
    let d := document s in
    set_document {| parentOf := parentOf d;
                    cursorOf := <[n := c]> (cursorOf d);
                    draggableOf := draggableOf d |} s).

Definition setDraggable (n : node) (b : bool) : M unit :=
  modify (fun s =>
    let d := document s in
    set_document {| parentOf := parentOf d;
                    cursorOf := cursorOf d;
                    draggableOf := <[n := b]> (draggableOf d) |} s).

(** [event.preventDefault()] and [event.stopPropagation()]. *)
Definition prevented (e : Event) : Event :=
  {| evTarget := evTarget e; dataTransfer := dataTransfer e;
     defaultPrevented := true; propagationStopped := propagationStopped e |}.

Definition stopped (e : Event) : Event :=
  {| evTarget := evTarget e; dataTransfer := dataTransfer e;
     defaultPrevented := defaultPrevented e; propagationStopped := true |}.

Definition preventDefault : M unit :=
  modify (fun s => set_event (prevented (event s)) s).

Definition stopPropagation : M unit :=
  modify (fun s => set_event (stopped (event s)) s).

(** The two methods as properties of the event object, which the source
    tests before it calls them: a DOM [Event] always has them. *)
Definition preventDefaultOf (e : Event) : option (M unit) :=
  Some preventDefault.

Definition stopPropagationOf (e : Event) : option (M unit) :=
  Some stopPropagation.

(** [dataTransfer.setData(format, value)] and the assignment to
    [dataTransfer.dropEffect]. *)
Definition setData (format value : string) (t : DataTransfer) : DataTransfer :=
  {| dropEffect := dropEffect t; files := files t;
     data := <[format := value]> (data t) |}.

Definition setDropEffect (name : string) (t : DataTransfer) : DataTransfer :=
  {| dropEffect := name; files := files t; data := data t |}.

Definition withDataTransfer (t : DataTransfer) (e : Event) : Event :=
  {| evTarget := evTarget e; dataTransfer := Some t;
     defaultPrevented := defaultPrevented e;
     propagationStopped := propagationStopped e |}.

(** [setTimeout(task, delay)]: the task is queued, to run no earlier than
    [delay] after now. *)
Definition setTimeout (t : Task) (delay : nat) : M unit :=
  modify (fun s =>
    set_calls (calls s ++ [Scheduled t delay])
      (set_timers (timers s ++ [{| due := clock s + delay; task := t |}]) s)).

(** [ChangeDetectorRef.detectChanges()]: refreshes the view; on a
    destroyed view the framework throws. *)
Definition cdr_detectChanges (v : ViewRef) : M unit :=
  fun s =>
    if destroyed v then Throw ViewDestroyedError s
    else Done tt (set_cdr (Some {| destroyed := destroyed v;
                                   refreshes := S (refreshes v) |}) s).

End DOM.

(** [Array.prototype.indexOf] on an array of strings: the first index
    holding the value, or -1. *)
Fixpoint indexOfFrom (i : Z) (l : list string) (x : string) : Z :=
  match l with
  | [] => (-1)%Z
  | y :: l' => if String.eqb y x then i else indexOfFrom (i + 1)%Z l' x
  end.

Definition indexOf (l : list string) (x : string) : Z := indexOfFrom 0%Z l x.

(** ** The class *)

(** *** The overridable hooks: no-ops in this class.  Each call is
    recorded with the event it is given. *)

Definition hook (h : Hook) : M unit :=
  modify (fun s => set_calls (calls s ++ [Called h (event s)]) s).

Definition dragEnterCallback : M unit := hook DragEnterCallback.
Definition dragOverCallback : M unit := hook DragOverCallback.
Definition dragLeaveCallback : M unit := hook DragLeaveCallback.
Definition dropCallback : M unit := hook DropCallback.
Definition dragStartCallback : M unit := hook DragStartCallback.
Definition dragEndCallback : M unit := hook DragEndCallback.

(** *** Accessors *)

Definition dragEnabled (d : AbstractDirective) : bool := _dragEnabled d.
Definition dragHandle (d : AbstractDirective) : option node := _dragHandle d.

Definition set_dragEnabled (value : bool) : M unit :=
  modify (fun s => set_this (set__dragEnabled value (this s)) s) ;;;
  el <- gets (fun s => element (this s)) ;;
  DOM.setDraggable el value.

Definition set_dragHandle (value : option node) : M unit :=
  modify (fun s => set_this (set__dragHandle value (this s)) s).

(** *** The drop filter *)

(** The [for ... of] loop over the session's zones: the first zone found in
    [own] ends it with [true]. *)
Fixpoint anyZoneMatches (own : list string) (allowed : list string) : bool :=
  match allowed with
  | [] => false
  | dropZone :: rest =>
      if negb (indexOf own dropZone =? -1)%Z then true
      else anyZoneMatches own rest
  end.

(** [event.dataTransfer && event.dataTransfer.files], as a condition. *)
Definition carriesFiles (e : Event) : bool :=
  match dataTransfer e with
  | Some t => truthy (files t)
  | None => false
  end.

Definition isDropAllowedOf (d : AbstractDirective) (svc : DragDropService)
    (e : Event) : bool :=
  if (isDragged svc || carriesFiles e) && dropEnabled d then
    match allowDrop d with
    | Some allow => allow (dragData svc)
    | None =>
        if (length (dropZones d) =? 0)%nat
           && (length (allowedDropZones svc) =? 0)%nat
        then true
        else anyZoneMatches (dropZones d) (allowedDropZones svc)
    end
  else false.

(** The method reads the state and changes nothing. *)
Definition isDropAllowed : M bool :=
  gets (fun s => isDropAllowedOf (this s) (dragDropService s) (event s)).

(** *** The methods behind the handlers *)

Definition preventAndStop : M unit :=
  e <- gets event ;;
  when (truthy (DOM.preventDefaultOf e)) DOM.preventDefault ;;;
  when (truthy (DOM.stopPropagationOf e)) DOM.stopPropagation.

(** The callback given to [setTimeout] by [detectChanges]. *)
Definition refreshTask : M unit :=
  c <- gets cdr ;;
  match c with
  | Some v => if negb (destroyed v) then DOM.cdr_detectChanges v else ret tt
  | None => ret tt
  end.

Definition detectChanges : M unit :=
  DOM.setTimeout RefreshTask 250.

Definition dragEnter : M unit :=
  ok <- isDropAllowed ;;
  when ok dragEnterCallback.

Definition dragOver : M unit :=
  ok <- isDropAllowed ;;
  when ok
    (e <- gets event ;;
     when (isPresent (DOM.preventDefaultOf e)) DOM.preventDefault ;;;
     dragOverCallback).

Definition dragLeave : M unit :=
  ok <- isDropAllowed ;;
  when ok dragLeaveCallback.

Definition drop : M unit :=
  ok <- isDropAllowed ;;
  when ok (preventAndStop ;;; dropCallback ;;; detectChanges).

Definition dragStart : M unit :=
  enabled <- gets (fun s => dragEnabled (this s)) ;;
  when enabled
    (modify (fun s =>
       set_dragDropService
         (set_allowedDropZones (dropZones (this s)) (dragDropService s)) s) ;;;
     dragStartCallback).

Definition dragEnd : M unit :=
  modify (fun s =>
    set_dragDropService (set_allowedDropZones [] (dragDropService s)) s) ;;;
  dragEndCallback.

(** *** The handlers the constructor registers on the element.

    A handler is run with the event object in the state's [event] field and
    returns what the arrow function returns: [None] for [undefined],
    [Some false] for [false]. *)

Definition ondragenter : M (option bool) := dragEnter ;;; ret None.
Definition ondragleave : M (option bool) := dragLeave ;;; ret None.
Definition ondrop : M (option bool) := drop ;;; ret None.

(** A write to [event.dataTransfer]; the source makes it only under its
    guard that the object is present. *)
Definition updateDataTransfer (f : DataTransfer -> DataTransfer) : M unit :=
  modify (fun s =>
    match dataTransfer (event s) with
    | Some t => set_event (DOM.withDataTransfer (f t) (event s)) s
    | None => s
    end).

Definition ondragover : M (option bool) :=
  dragOver ;;;
  t <- gets (fun s => dataTransfer (event s)) ;;
  when (isPresent t)
    (name <- gets (fun s => cfgDropEffectName (config (this s))) ;;
     updateDataTransfer (DOM.setDropEffect name) ;;;
     updateDataTransfer (DOM.setData "text" "")) ;;;
  ret (Some false).

Definition onmousedown : M (option bool) :=
  modify (fun s => set_this (set_target (evTarget (event s)) (this s)) s) ;;;
  ret None.

(** The part of [ondragstart] after the handle test. *)
Definition ondragstart_started : M (option bool) :=
  dragStart ;;;
  t <- gets (fun s => dataTransfer (event s)) ;;
  when (isPresent t) (updateDataTransfer (DOM.setData "text" "")) ;;;
  ret None.

Definition ondragstart : M (option bool) :=
  h <- gets (fun s => dragHandle (this s)) ;;
  match h with
  | Some handle =>
      inside <- gets (fun s =>
                  DOM.contains (document s) handle (target (this s))) ;;
      if negb inside then DOM.preventDefault ;;; ret None
      else ondragstart_started
  | None => ondragstart_started
  end.

Definition ondragend : M (option bool) :=
  parent <- gets (fun s => DOM.parentElement (document s) (element (this s))) ;;
  helper <- gets (fun s => dragHelper (this s)) ;;
  match parent, helper with
  | Some p, Some h => DOM.removeChild p h
  | _, _ => ret tt
  end ;;;
  dragEnd ;;;
  cursorElem <- gets (fun s =>
                  match _dragHandle (this s) with
                  | Some h => h
                  | None => element (this s)
                  end) ;;
  c <- gets (fun s => defaultCursor (this s)) ;;
  DOM.setCursor cursorElem c ;;;
  ret None.

(** *** The constructor *)

(** The fields as the constructor leaves them: the declared defaults, the
    element and the configuration's default cursor. *)
Definition initialFields (nativeElement : node) (cfg : DragDropConfig)
  : AbstractDirective :=
  {| element := nativeElement; _dragHandle := None; dragHelper := None;
     defaultCursor := cfgDefaultCursor cfg; target := None;
     _dragEnabled := true; dropEnabled := false;
     effectAllowed := None; effectCursor := None;
     dropZones := []; allowDrop := None; cloneItem := false;
     config := cfg |}.

Definition constructor (nativeElement : node) (cfg : DragDropConfig) : M unit :=
  modify (set_this (initialFields nativeElement cfg)) ;;;
  DOM.setCursor nativeElement (cfgDefaultCursor cfg).

(** ** The host's event loop *)

(** The browser calls a registered handler with the event object. *)
Definition dispatch (handler : M (option bool)) (e : Event) : M (option bool) :=
  modify (set_event e) ;;; handler.

Definition runTask (t : Task) : M unit :=
  match t with RefreshTask => refreshTask end.

Definition isDue (now : nat) (t : Timer) : bool := (due t <=? now)%nat.

(** The first timer that is due, and the queue without it. *)
Fixpoint takeDue (now : nat) (l : list Timer) : option (Timer * list Timer) :=
  match l with
  | [] => None
  | t :: rest =>
      if isDue now t then Some (t, rest)
      else match takeDue now rest with
           | Some (t', rest') => Some (t', t :: rest')
           | None => None
           end
  end.

(** A turn of the loop: time passes, or a due timer is taken from the queue
    and its task run as a task of its own.  The label is the timer run. *)
Inductive loop : State -> option Timer -> State -> Prop :=
| loop_wait s ms :
    loop s None (set_clock (clock s + ms) s)
| loop_fire s t rest :
    takeDue (clock s) (timers s) = Some (t, rest) ->
    loop s (Some t) (final (runTask (task t) (set_timers rest s))).

(** The zones of a directive and of the session, replaced. *)
Definition set_dropZones (z : list string) (d : AbstractDirective)
  : AbstractDirective :=
  {| element := element d; _dragHandle := _dragHandle d;
     dragHelper := dragHelper d; defaultCursor := defaultCursor d;
     target := target d; _dragEnabled := _dragEnabled d;
     dropEnabled := dropEnabled d;
     effectAllowed := effectAllowed d; effectCursor := effectCursor d;
     dropZones := z; allowDrop := allowDrop d;
     cloneItem := cloneItem d; config := config d |}.

Definition withZones (own allowed : list string) (s : State) : State :=
  set_dragDropService (set_allowedDropZones allowed (dragDropService s))
    (set_this (set_dropZones own (this s)) s).

(** ** Sample configurations

    Element 1 sits under element 0 (the body); element 2 is a helper and
    element 3 a handle inside element 1; element 4 is a sibling. *)

Definition sampleConfig : DragDropConfig :=
  {| cfgDefaultCursor := "pointer"; cfgDropEffectName := "move" |}.

Definition sampleDom : Dom :=
  {| parentOf := {[ 1 := 0; 2 := 0; 3 := 1; 4 := 0 ]};
     cursorOf := {[ 1 := "move"; 3 := "grabbing" ]};
     draggableOf := ∅ |}.

Definition sampleTransfer : DataTransfer :=
  {| dropEffect := "none"; files := None; data := ∅ |}.

Definition sampleEvent (t : option DataTransfer) : Event :=
  {| evTarget := Some 1; dataTransfer := t;
     defaultPrevented := false; propagationStopped := false |}.

(** A drop target advertising the zones [own]. *)
Definition sampleTarget (enabled : bool) (own : list string)
    (allow : option (JsValue -> bool)) : AbstractDirective :=
  {| element := 1; _dragHandle := None; dragHelper := None;
     defaultCursor := "pointer"; target := None;
     _dragEnabled := true; dropEnabled := enabled;
     effectAllowed := None; effectCursor := None;
     dropZones := own; allowDrop := allow; cloneItem := false;
     config := sampleConfig |}.

(** A drag source with the given handle, helper and pointer-down target. *)
Definition sampleSource (handle helper pointer : option node)
    (own : list string) : AbstractDirective :=
  {| element := 1; _dragHandle := handle; dragHelper := helper;
     defaultCursor := "pointer"; target := pointer;
     _dragEnabled := true; dropEnabled := false;
     effectAllowed := None; effectCursor := None;
     dropZones := own; allowDrop := None; cloneItem := true;
     config := sampleConfig |}.

Definition sampleSession (active : bool) (eligible : list string)
  : DragDropService :=
  {| isDragged := active; dragData := JsNumber 7;
     allowedDropZones := eligible |}.

Definition sampleState (d : AbstractDirective) (svc : DragDropService)
    (dom : Dom) (e : Event) : State :=
  {| this := d; dragDropService := svc; document := dom;
     cdr := Some {| destroyed := false; refreshes := 0 |};
     event := e; clock := 1000; timers := []; calls := [] |}.

(** The element accepts zones a and b; the session offers b and c. *)
Definition sampleAbBc : State :=
  sampleState (sampleTarget true ["a"; "b"] None)
    (sampleSession true ["b"; "c"]) sampleDom (sampleEvent None).

(** Zones that intersect, under a predicate that refuses everything. *)
Definition sampleRefusing : State :=
  sampleState (sampleTarget true ["a"; "b"] (Some (fun _ => false)))
    (sampleSession true ["b"; "c"]) sampleDom (sampleEvent None).

(** Dropping disabled, all else in favour: an active drag, zones that
    intersect, a file list on the event and a predicate that accepts. *)
Definition sampleDisabled : State :=
  sampleState (sampleTarget false ["a"; "b"] (Some (fun _ => true)))
    (sampleSession true ["b"; "c"]) sampleDom
    (sampleEvent (Some {| dropEffect := "none"; files := Some ["a.txt"];
                          data := ∅ |})).

(** The transfer payload of an event is marked non-empty: the event has a
    [dataTransfer] whose data store holds an entry. *)
Definition transferMarked (e : Event) : Prop :=
  exists t, dataTransfer e = Some t /\ data t <> ∅.

(** A drag started inside the handle, on an event with a transfer. *)
Definition sampleStartInside : State :=
  sampleState (sampleSource (Some 3) None (Some 3) ["x"])
    (sampleSession false []) sampleDom (sampleEvent (Some sampleTransfer)).

(** A drag started outside the handle, on a sibling element. *)
Definition sampleStartOutside : State :=
  sampleState (sampleSource (Some 3) None (Some 4) ["x"])
    (sampleSession false []) sampleDom (sampleEvent (Some sampleTransfer)).

(** A drag started without a handle, on an event without a transfer. *)
Definition sampleStartBare : State :=
  sampleState (sampleSource None None (Some 1) ["x"])
    (sampleSession false []) sampleDom (sampleEvent None).

(** The element whose cursor [ondragend] restores. *)
Definition cursorElem (d : AbstractDirective) : node :=
  match _dragHandle d with
  | Some h => h
  | None => element d
  end.

(** [removeChild] in [ondragend] does not throw: when the element has a
    parent and a helper is set, the helper is a child of that parent. *)
Definition helperRemovable (s : State) : Prop :=
  forall p h,
    DOM.parentElement (document s) (element (this s)) = Some p ->
    dragHelper (this s) = Some h ->
    DOM.parentElement (document s) h = Some p.

(** The end of a drag whose helper sits next to the element. *)
Definition sampleEndAttached : State :=
  sampleState (sampleSource (Some 3) (Some 2) (Some 3) ["x"])
    (sampleSession true ["x"]) sampleDom (sampleEvent None).

(** The same, with the helper no longer in the document. *)
Definition sampleEndStale : State :=
  sampleState (sampleSource (Some 3) (Some 2) (Some 3) ["x"])
    (sampleSession true ["x"])
    {| parentOf := {[ 1 := 0; 3 := 1; 4 := 0 ]};
       cursorOf := {[ 1 := "move"; 3 := "grabbing" ]};
       draggableOf := ∅ |}
    (sampleEvent None).

(** The element has left the document; its helper is still under the
    body. *)
Definition sampleEndOrphan : State :=
  sampleState (sampleSource None (Some 2) (Some 1) ["x"])
    (sampleSession true ["x"])
    {| parentOf := {[ 2 := 0; 3 := 1; 4 := 0 ]};
       cursorOf := {[ 1 := "move" ]};
       draggableOf := ∅ |}
    (sampleEvent None).

(** The hooks among the calls, in order. *)
Definition hooksOf (l : list Call) : list Hook :=
  omap (fun c => match c with
                 | Called h _ => Some h
                 | Scheduled _ _ => None
                 end) l.

(** The answer of the filter in a state. *)
Definition allowed (s : State) : bool :=
  isDropAllowedOf (this s) (dragDropService s) (event s).

(** The timer [detectChanges] queues when called at time [now]. *)
Definition refreshTimer (now : nat) : Timer :=
  {| due := now + 250; task := RefreshTask |}.

(** What [ondragover] writes to a [dataTransfer]. *)
Definition dragOverTransfer (d : AbstractDirective) (t : DataTransfer)
  : DataTransfer :=
  DOM.setData "text" "" (DOM.setDropEffect (cfgDropEffectName (config d)) t).

(** A drop the filter accepts, and one it refuses. *)
Definition sampleDropAccepted : State :=
  sampleState (sampleTarget true ["x"] None) (sampleSession true ["x"])
    sampleDom (sampleEvent (Some sampleTransfer)).

Definition sampleDropRefused : State :=
  sampleState (sampleTarget true ["y"] None) (sampleSession true ["x"])
    sampleDom (sampleEvent (Some sampleTransfer)).

(** The view of a state, destroyed. *)
Definition sampleDestroyed : State :=
  set_cdr (Some {| destroyed := true; refreshes := 0 |}) sampleDropAccepted.

(** The scenario of the specification: element 1 is the source A, element 4
    the target B, both in zone x.  The session is marked active by the
    concrete source role, outside this class. *)
Definition scenarioA : AbstractDirective :=
  sampleSource None None None ["x"].

Definition scenarioB : AbstractDirective :=
  {| element := 4; _dragHandle := None; dragHelper := None;
     defaultCursor := "pointer"; target := None;
     _dragEnabled := true; dropEnabled := true;
     effectAllowed := None; effectCursor := None;
     dropZones := ["x"]; allowDrop := None; cloneItem := false;
     config := sampleConfig |}.

Definition scenarioStart : State :=
  sampleState scenarioA (sampleSession true []) sampleDom
    (sampleEvent (Some sampleTransfer)).

Definition scenarioStarted : State :=
  final (dispatch ondragstart (sampleEvent (Some sampleTransfer)) scenarioStart).

Definition scenarioOver : State :=
  final (dispatch ondragover (sampleEvent (Some sampleTransfer))
           (set_this scenarioB scenarioStarted)).

Definition scenarioDropped : State :=
  final (dispatch ondrop (sampleEvent (Some sampleTransfer)) scenarioOver).

Definition scenarioEnded : State :=
  final (dispatch ondragend (sampleEvent None)
           (set_this scenarioA scenarioDropped)).

(** ** Sequences of target-side events *)

(** The four events a drop target receives. *)
Inductive TargetEvent :=
| Enter
| Over
| Leave
| Dropped.

Definition targetHandler (k : TargetEvent) : M (option bool) :=
  match k with
  | Enter => ondragenter
  | Over => ondragover
  | Leave => ondragleave
  | Dropped => ondrop
  end.

(** The browser delivers the events, one after the other. *)
Fixpoint dispatchAll (l : list (TargetEvent * Event)) : M unit :=
  match l with
  | [] => ret tt
  | (k, e) :: rest => dispatch (targetHandler k) e ;;; dispatchAll rest
  end.

(** How often the drop hook was called, and how often a task was given to
    [setTimeout]. *)
Definition isDropCall (c : Call) : bool :=
  match c with
  | Called DropCallback _ => true
  | _ => false
  end.

Definition isScheduled (c : Call) : bool :=
  match c with
  | Scheduled _ _ => true
  | Called _ _ => false
  end.

Definition dropsOf (l : list Call) : nat :=
  length (List.filter isDropCall l).

Definition scheduledOf (l : list Call) : nat :=
  length (List.filter isScheduled l).

(** The source of [sampleStartInside], with dragging switched off. *)
Definition sampleStartDisabled : State :=
  set_this (set__dragEnabled false (this sampleStartInside)) sampleStartInside.

(** An element that is source and target at once, in zone x. *)
Definition sampleBoth : State :=
  sampleState scenarioB (sampleSession true []) sampleDom (sampleEvent None).

(** No drag is active; the event's dataTransfer has an empty file list, as
    that of a drag that carries no file has. *)
Definition sampleEmptyFiles : State :=
  sampleState (sampleTarget true [] None) (sampleSession false []) sampleDom
    (sampleEvent (Some {| dropEffect := "none"; files := Some [];
                          data := ∅ |})).

(** * Properties *)

(** ** The host and the constructor *)

Example contains_self : DOM.contains sampleDom 3 (Some 3) = true.
Proof. vm_compute. reflexivity. Qed.

Example contains_descendant : DOM.contains sampleDom 0 (Some 3) = true.
Proof. vm_compute. reflexivity. Qed.

Example contains_sibling : DOM.contains sampleDom 3 (Some 4) = false.
Proof. vm_compute. reflexivity. Qed.

Example contains_nothing : DOM.contains sampleDom 3 None = false.
Proof. reflexivity. Qed.

(** The constructor takes the default cursor from the configuration and
    puts it on the element; dropping starts disabled, dragging enabled. *)
Lemma constructor_run (el : node) (cfg : DragDropConfig) (s : State) :
  exists s',
    constructor el cfg s = Done tt s'
    /\ element (this s') = el
    /\ defaultCursor (this s') = cfgDefaultCursor cfg
    /\ cursorOf (document s') !! el = Some (cfgDefaultCursor cfg)
    /\ dropEnabled (this s') = false
    /\ dragEnabled (this s') = true
    /\ dropZones (this s') = [].
Proof.
  eexists. split; [reflexivity|]. cbn. repeat split. apply lookup_insert_eq.
Qed.

(** Pointer down records the origin of the event, and nothing else. *)
Lemma onmousedown_run (s : State) :
  onmousedown s
  = Done None (set_this (set_target (evTarget (event s)) (this s)) s).
Proof. reflexivity. Qed.

(** ** Array search *)

Section IndexOf.

Implicit Types (l : list string) (x : string) (i : Z).

Lemma indexOfFrom_lower l x i :
  (0 <= i)%Z -> indexOfFrom i l x = (-1)%Z \/ (i <= indexOfFrom i l x)%Z.
Proof.
  revert i. induction l as [|y l IH]; intros i Hi; simpl.
  - by left.
  - destruct (String.eqb y x); [right; lia|].
    destruct (IH (i + 1)%Z) as [H|H]; [lia|by left|right; lia].
Qed.

Lemma indexOfFrom_found l x i :
  (0 <= i)%Z -> indexOfFrom i l x <> (-1)%Z <-> x ∈ l.
Proof.
  revert i. induction l as [|y l IH]; intros i Hi; simpl.
  - split; [done|]. by intros ?%elem_of_nil.
  - destruct (String.eqb y x) eqn:E.
    + apply String.eqb_eq in E as ->. split; [intros _; left|lia].
    + apply String.eqb_neq in E. rewrite IH by lia.
      rewrite elem_of_cons. split; [by right|]. by intros [->|].
Qed.

Lemma indexOf_found l x : indexOf l x <> (-1)%Z <-> x ∈ l.
Proof. by apply indexOfFrom_found. Qed.

Lemma indexOf_test l x : negb (indexOf l x =? -1)%Z = bool_decide (x ∈ l).
Proof.
  destruct (Z.eqb_spec (indexOf l x) (-1)) as [E|E]; simpl.
  - symmetry. apply bool_decide_eq_false. by intros H%indexOf_found.
  - symmetry. apply bool_decide_eq_true. by apply indexOf_found.
Qed.

End IndexOf.

(** The loop answers whether the two lists share an identifier. *)
Lemma anyZoneMatches_spec (own allowed : list string) :
  anyZoneMatches own allowed = true <-> exists z, z ∈ allowed /\ z ∈ own.
Proof.
  induction allowed as [|a allowed IH]; simpl.
  - split; [done|]. intros (z & Hz & _). by apply elem_of_nil in Hz.
  - rewrite indexOf_test. case_bool_decide as Ha.
    + split; [|done]. intros _. exists a. split; [left|done].
    + rewrite IH. split.
      * intros (z & Hz & Hown). exists z. split; [by right|done].
      * intros (z & Hz & Hown). apply elem_of_cons in Hz as [->|Hz]; [done|].
        by exists z.
Qed.

Lemma anyZoneMatches_same_elements (own own' allowed allowed' : list string) :
  (forall z, z ∈ own' <-> z ∈ own) ->
  (forall z, z ∈ allowed' <-> z ∈ allowed) ->
  anyZoneMatches own' allowed' = anyZoneMatches own allowed.
Proof.
  intros Hown Hall. apply eq_true_iff_eq.
  rewrite !anyZoneMatches_spec. split; intros (z & Hz & Hz'); exists z.
  - by rewrite <- Hall, <- Hown.
  - by rewrite Hall, Hown.
Qed.

Lemma length_zero_test {A} (l : list A) : (length l =? 0)%nat = true <-> l = [].
Proof. destruct l; simpl; split; done. Qed.

Lemma same_elements_nil {A} (l l' : list A) :
  (forall z, z ∈ l' <-> z ∈ l) -> (length l' =? 0)%nat = (length l =? 0)%nat.
Proof.
  intros H. destruct l as [|x l], l' as [|y l']; simpl; try done.
  - specialize (H y). exfalso. eapply (not_elem_of_nil y). apply H. left.
  - specialize (H x). exfalso. eapply (not_elem_of_nil x). apply H. left.
Qed.

(** ** The filter *)

Lemma isDropAllowed_run (s : State) :
  isDropAllowed s
  = Done (isDropAllowedOf (this s) (dragDropService s) (event s)) s.
Proof. reflexivity. Qed.


Lemma isDropAllowedOf_zones (d : AbstractDirective) (svc : DragDropService)
    (e : Event) :
  dropEnabled d = true ->
  isDragged svc = true ->
  allowDrop d = None ->
  isDropAllowedOf d svc e
  = ((length (dropZones d) =? 0)%nat && (length (allowedDropZones svc) =? 0)%nat)
    || anyZoneMatches (dropZones d) (allowedDropZones svc).
Proof.
  intros Hdrop Hdrag Hpred. unfold isDropAllowedOf.
  rewrite Hdrop, Hdrag, Hpred. simpl.
  by destruct (_ && _).
Qed.

(** C1: with dropping enabled, a drag active and no allowDrop predicate,
    the filter allows when the element's zones and the session's zones are
    both empty; otherwise it allows exactly when some zone of the session
    occurs among the element's zones.  Lists with the same elements, in
    any order and with any repetitions, give the same answer. *)
Theorem isDropAllowed_zone_matching (s : State) :
  dropEnabled (this s) = true ->
  isDragged (dragDropService s) = true ->
  allowDrop (this s) = None ->
  (dropZones (this s) = [] /\ allowedDropZones (dragDropService s) = [] ->
   isDropAllowed s = Done true s)
  /\ (~ (dropZones (this s) = [] /\ allowedDropZones (dragDropService s) = []) ->
      (isDropAllowed s = Done true s <->
       exists z, z ∈ allowedDropZones (dragDropService s) /\ z ∈ dropZones (this s))
      /\ (isDropAllowed s = Done false s <->
          ~ exists z, z ∈ allowedDropZones (dragDropService s)
                      /\ z ∈ dropZones (this s)))
  /\ (forall own' eligible' : list string,
        (forall z, z ∈ own' <-> z ∈ dropZones (this s)) ->
        (forall z, z ∈ eligible' <-> z ∈ allowedDropZones (dragDropService s)) ->
        exists b, isDropAllowed s = Done b s
                  /\ isDropAllowed (withZones own' eligible' s)
                     = Done b (withZones own' eligible' s)).
Proof.
  intros Hdrop Hdrag Hpred. rewrite !isDropAllowed_run.
  rewrite (isDropAllowedOf_zones _ _ _ Hdrop Hdrag Hpred).
  split; [|split].
  - intros [-> ->]. reflexivity.
  - intros Hne.
    assert ((length (dropZones (this s)) =? 0)%nat
            && (length (allowedDropZones (dragDropService s)) =? 0)%nat = false)
      as ->.
    { apply not_true_is_false. intros [H1 H2]%andb_true_iff.
      apply Hne. by rewrite length_zero_test in H1, H2. }
    simpl. rewrite <- anyZoneMatches_spec.
    destruct (anyZoneMatches _ _); split; split; congruence.
  - intros own' eligible' Hown Hel. eexists. split; [reflexivity|].
    rewrite isDropAllowed_run. f_equal.
    rewrite isDropAllowedOf_zones by done. simpl.
    rewrite (same_elements_nil _ _ Hown), (same_elements_nil _ _ Hel).
    by rewrite (anyZoneMatches_same_elements _ _ _ _ Hown Hel).
Qed.

Lemma isDropAllowed_zone_matching_witness :
  isDropAllowed sampleAbBc = Done true sampleAbBc.
Proof.
  destruct (isDropAllowed_zone_matching sampleAbBc eq_refl eq_refl eq_refl)
    as (_ & Hiff & _).
  apply Hiff.
  - intros [H _]. discriminate H.
  - exists "b". split; [left|right; left].
Defined.

(** The examples of the specification: zones a, b against b, c and
    against c, d. *)
Example isDropAllowed_ab_bc :
  isDropAllowedOf (sampleTarget true ["a"; "b"] None)
    (sampleSession true ["b"; "c"]) (sampleEvent None) = true.
Proof. reflexivity. Qed.

Example isDropAllowed_ab_cd :
  isDropAllowedOf (sampleTarget true ["a"; "b"] None)
    (sampleSession true ["c"; "d"]) (sampleEvent None) = false.
Proof. reflexivity. Qed.

Example isDropAllowed_unrestricted :
  isDropAllowedOf (sampleTarget true [] None)
    (sampleSession true []) (sampleEvent None) = true.
Proof. reflexivity. Qed.

(** C2: when the allowDrop predicate is set and the gate passes, the filter
    returns the predicate's result on the session's payload, whatever the
    element's zones and the session's zones are. *)
Theorem isDropAllowed_predicate_authoritative (s : State)
    (allow : JsValue -> bool) :
  allowDrop (this s) = Some allow ->
  dropEnabled (this s) = true ->
  isDragged (dragDropService s) || carriesFiles (event s) = true ->
  isDropAllowed s = Done (allow (dragData (dragDropService s))) s
  /\ forall own eligible : list string,
       isDropAllowed (withZones own eligible s)
       = Done (allow (dragData (dragDropService s))) (withZones own eligible s).
Proof.
  intros Hpred Hdrop Hgate. split; [|intros own eligible];
    rewrite isDropAllowed_run; f_equal; unfold isDropAllowedOf; simpl;
    by rewrite Hgate, Hdrop, Hpred.
Qed.

Lemma isDropAllowed_predicate_authoritative_witness :
  anyZoneMatches (dropZones (this sampleRefusing))
    (allowedDropZones (dragDropService sampleRefusing)) = true
  /\ isDropAllowed sampleRefusing = Done false sampleRefusing.
Proof.
  split; [reflexivity|].
  exact (proj1 (isDropAllowed_predicate_authoritative sampleRefusing
                  (fun _ => false) eq_refl eq_refl eq_refl)).
Defined.

(** The converse case of the specification: zones that do not intersect,
    under a predicate that accepts. *)
Example isDropAllowed_predicate_accepts :
  anyZoneMatches ["a"; "b"] ["c"; "d"] = false
  /\ isDropAllowedOf (sampleTarget true ["a"; "b"] (Some (fun _ => true)))
       (sampleSession true ["c"; "d"]) (sampleEvent None) = true.
Proof. split; reflexivity. Qed.

(** The gate as the code has it: the filter refuses when dropping is
    disabled, whatever the session, the zones and the predicate are, and
    when no drag is active and the event has no file list. *)
Theorem isDropAllowed_gate (s : State) :
  dropEnabled (this s) = false
  \/ (isDragged (dragDropService s) = false /\ carriesFiles (event s) = false) ->
  isDropAllowed s = Done false s.
Proof.
  intros Hgate. rewrite isDropAllowed_run. f_equal. unfold isDropAllowedOf.
  destruct Hgate as [->|[-> ->]]; [by rewrite andb_false_r|reflexivity].
Qed.

Lemma isDropAllowed_gate_witness :
  isDropAllowed sampleDisabled = Done false sampleDisabled.
Proof. apply isDropAllowed_gate. left. reflexivity. Defined.

(** C3: the filter is to refuse unless dropping is enabled and a drag is
    active or the event carries file data.  The code tests that the event's
    file list is there, not that it holds a file: on an event whose
    dataTransfer has an empty file list, with no drag active, no predicate
    and no zones, it allows. *)
Theorem isDropAllowed_empty_file_list :
  dropEnabled (this sampleEmptyFiles) = true
  /\ isDragged (dragDropService sampleEmptyFiles) = false
  /\ files <$> dataTransfer (event sampleEmptyFiles) = Some (Some [])
  /\ isDropAllowed sampleEmptyFiles = Done true sampleEmptyFiles.
Proof. repeat split. Qed.

(** Without an active drag the file list alone opens the gate. *)
Example isDropAllowed_file_drop :
  isDropAllowedOf (sampleTarget true [] None) (sampleSession false [])
    (sampleEvent (Some {| dropEffect := "none"; files := Some [];
                          data := ∅ |})) = true.
Proof. reflexivity. Qed.

(** ** Drag start *)

Ltac run :=
  cbv beta iota zeta delta
    [bind gets modify ret when throw
     ondragenter ondragover ondragleave ondrop onmousedown
     ondragstart ondragstart_started ondragend
     dragEnter dragOver dragLeave drop dragStart dragEnd
     preventAndStop detectChanges isDropAllowed updateDataTransfer
     dragEnterCallback dragOverCallback dragLeaveCallback dropCallback
     dragStartCallback dragEndCallback hook
     isPresent truthy DOM.preventDefaultOf DOM.stopPropagationOf
     DOM.preventDefault DOM.stopPropagation DOM.setTimeout DOM.setCursor].

Lemma ondragstart_started_run (s : State) :
  dragEnabled (this s) = true ->
  ondragstart_started s
  = Done None
      (set_event
         (match dataTransfer (event s) with
          | Some t => DOM.withDataTransfer (DOM.setData "text" "" t) (event s)
          | None => event s
          end)
         (set_calls (calls s ++ [Called DragStartCallback (event s)])
            (set_dragDropService
               (set_allowedDropZones (dropZones (this s)) (dragDropService s))
               s))).
Proof.
  intros Henabled. run. rewrite Henabled. simpl.
  destruct s as [d svc dom v [tg [t|] dp ps] now tm cl]; reflexivity.
Qed.

Lemma ondragstart_honoured (s : State) :
  dragHandle (this s) = None
  \/ (exists h, dragHandle (this s) = Some h
                /\ DOM.contains (document s) h (target (this s)) = true) ->
  ondragstart s = ondragstart_started s.
Proof.
  intros [Hnone|(h & Hsome & Hin)]; unfold ondragstart, bind, gets.
  - by rewrite Hnone.
  - by rewrite Hsome, Hin.
Qed.

(** C4, as the code has it: on a drag start with dragging enabled and no
    handle, or a pointer-down target inside the handle, the session's zones
    become the element's zones, the dragStart hook is called exactly once,
    with the event, and when the event carries a dataTransfer its text data
    is set, which marks the transfer non-empty; an event without a
    dataTransfer is left as it is. *)
Theorem ondragstart_starts (s : State) :
  dragEnabled (this s) = true ->
  dragHandle (this s) = None
  \/ (exists h, dragHandle (this s) = Some h
                /\ DOM.contains (document s) h (target (this s)) = true) ->
  exists s',
    ondragstart s = Done None s'
    /\ allowedDropZones (dragDropService s') = dropZones (this s)
    /\ calls s' = calls s ++ [Called DragStartCallback (event s)]
    /\ dataTransfer (event s') = DOM.setData "text" "" <$> dataTransfer (event s)
    /\ (is_Some (dataTransfer (event s)) -> transferMarked (event s'))
    /\ (dataTransfer (event s) = None -> event s' = event s).
Proof.
  intros Henabled Hhandle.
  rewrite (ondragstart_honoured s Hhandle), (ondragstart_started_run s Henabled).
  eexists. split; [reflexivity|]. cbn [set_event set_calls set_dragDropService
    set_allowedDropZones allowedDropZones dragDropService calls event].
  split; [reflexivity|]. split; [reflexivity|].
  destruct (dataTransfer (event s)) as [t|] eqn:E; cbn.
  - split; [reflexivity|]. split; [|done].
    intros _. exists (DOM.setData "text" "" t).
    split; [reflexivity|]. cbn. apply insert_non_empty.
  - split; [exact E|]. split; [by intros [? ?]|intros _; reflexivity].
Qed.

Lemma ondragstart_starts_witness :
  exists s',
    ondragstart sampleStartInside = Done None s'
    /\ allowedDropZones (dragDropService s') = ["x"]
    /\ calls s' = [Called DragStartCallback (sampleEvent (Some sampleTransfer))]
    /\ transferMarked (event s').
Proof.
  destruct (ondragstart_starts sampleStartInside eq_refl) as (s' & H).
  - right. exists 3. split; [reflexivity|]. vm_compute. reflexivity.
  - exists s'. destruct H as (Hrun & Hzones & Hcalls & _ & Hmarked & _).
    repeat split; [exact Hrun|exact Hzones|exact Hcalls|].
    apply Hmarked. eexists. reflexivity.
Defined.

(** C4, as the claim has it, fails on an event without a dataTransfer: the
    drag starts and the hook is called, but no transfer is marked. *)
Lemma ondragstart_without_transfer :
  dragEnabled (this sampleStartBare) = true
  /\ dragHandle (this sampleStartBare) = None
  /\ exists s',
       ondragstart sampleStartBare = Done None s'
       /\ calls s' = [Called DragStartCallback (sampleEvent None)]
       /\ ~ transferMarked (event s').
Proof.
  split; [reflexivity|]. split; [reflexivity|].
  eexists. split; [reflexivity|]. split; [reflexivity|].
  intros (t & Ht & _). discriminate Ht.
Qed.

(** C6: on a drag start with a handle that does not contain the pointer-down
    target, the default action is suppressed and nothing else changes: no
    hook is called and the session's zones stay as they were. *)
Theorem ondragstart_outside_handle (s : State) (h : node) :
  dragHandle (this s) = Some h ->
  DOM.contains (document s) h (target (this s)) = false ->
  exists s',
    ondragstart s = Done None s'
    /\ s' = set_event (DOM.prevented (event s)) s
    /\ defaultPrevented (event s') = true
    /\ calls s' = calls s
    /\ allowedDropZones (dragDropService s')
       = allowedDropZones (dragDropService s)
    /\ dragDropService s' = dragDropService s
    /\ this s' = this s
    /\ document s' = document s
    /\ cdr s' = cdr s
    /\ timers s' = timers s.
Proof.
  intros Hhandle Hout. eexists. split.
  - unfold ondragstart, bind, gets. rewrite Hhandle, Hout. reflexivity.
  - repeat split.
Qed.

Lemma ondragstart_outside_handle_witness :
  ondragstart sampleStartOutside
  = Done None (set_event (DOM.prevented (event sampleStartOutside))
                 sampleStartOutside)
  /\ allowedDropZones
       (dragDropService (final (ondragstart sampleStartOutside))) = [].
Proof.
  destruct (ondragstart_outside_handle sampleStartOutside 3 eq_refl)
    as (s' & Hrun & -> & _).
  - vm_compute. reflexivity.
  - split; [exact Hrun|]. rewrite Hrun. reflexivity.
Defined.

(** ** Drag end *)

(** What [ondragend] does once the helper is dealt with. *)
Lemma ondragend_tail (s : State) :
  (dragEnd ;;;
   cursorElem <- gets (fun s => match _dragHandle (this s) with
                                | Some h => h
                                | None => element (this s)
                                end) ;;
   c <- gets (fun s => defaultCursor (this s)) ;;
   DOM.setCursor cursorElem c ;;;
   ret (@None bool)) s
  = Done None
      (set_document
         {| parentOf := parentOf (document s);
            cursorOf := <[cursorElem (this s) := defaultCursor (this s)]>
                          (cursorOf (document s));
            draggableOf := draggableOf (document s) |}
         (set_calls (calls s ++ [Called DragEndCallback (event s)])
            (set_dragDropService
               (set_allowedDropZones [] (dragDropService s)) s))).
Proof. reflexivity. Qed.

Lemma ondragend_run (s : State) :
  ondragend s
  = match (match DOM.parentElement (document s) (element (this s)),
                 dragHelper (this s) with
           | Some p, Some h => DOM.removeChild p h
           | _, _ => ret tt
           end) s with
    | Done _ s1 =>
        Done None
          (set_document
             {| parentOf := parentOf (document s1);
                cursorOf := <[cursorElem (this s1) := defaultCursor (this s1)]>
                              (cursorOf (document s1));
                draggableOf := draggableOf (document s1) |}
             (set_calls (calls s1 ++ [Called DragEndCallback (event s1)])
                (set_dragDropService
                   (set_allowedDropZones [] (dragDropService s1)) s1)))
    | Throw e s1 => Throw e s1
    end.
Proof.
  unfold ondragend. unfold bind at 1 2 3. unfold gets at 1 2.
  destruct (match DOM.parentElement _ _, dragHelper _ with
            | Some p, Some h => DOM.removeChild p h
            | _, _ => ret tt
            end s) as [[] s1|e s1]; [|reflexivity].
  apply ondragend_tail.
Qed.

(** The removal step returns, changing at most the parent map, when the
    helper is removable. *)
Lemma removal_returns (s : State) :
  helperRemovable s ->
  exists s1,
    (match DOM.parentElement (document s) (element (this s)),
           dragHelper (this s) with
     | Some p, Some h => DOM.removeChild p h
     | _, _ => ret tt
     end) s = Done tt s1
    /\ this s1 = this s /\ dragDropService s1 = dragDropService s
    /\ event s1 = event s /\ calls s1 = calls s
    /\ cursorOf (document s1) = cursorOf (document s).
Proof.
  intros Hrem. unfold helperRemovable in Hrem.
  destruct (DOM.parentElement _ _) as [p|]; [|by exists s].
  destruct (dragHelper _) as [h|]; [|by exists s].
  unfold DOM.removeChild. rewrite decide_True by by apply Hrem.
  eexists. split; [reflexivity|]. done.
Qed.

(** A drag end on which the removal of the helper does not throw empties
    the session's zones, calls the dragEnd hook with the event, and sets
    the cursor of the handle, or of the element when there is no handle, to
    the default cursor. *)
Theorem ondragend_clears (s : State) :
  helperRemovable s ->
  exists s',
    ondragend s = Done None s'
    /\ allowedDropZones (dragDropService s') = []
    /\ calls s' = calls s ++ [Called DragEndCallback (event s)]
    /\ cursorOf (document s') !! cursorElem (this s)
       = Some (defaultCursor (this s))
    /\ this s' = this s.
Proof.
  intros Hrem. rewrite ondragend_run.
  destruct (removal_returns s Hrem) as (s1 & -> & Hthis & Hsvc & Hev & Hcalls & _).
  eexists. split; [reflexivity|]. cbn.
  rewrite Hthis, Hev, Hcalls. repeat split. apply lookup_insert_eq.
Qed.

Lemma ondragend_clears_witness :
  exists s',
    ondragend sampleEndAttached = Done None s'
    /\ allowedDropZones (dragDropService s') = []
    /\ calls s' = [Called DragEndCallback (sampleEvent None)]
    /\ cursorOf (document s') !! 3 = Some "pointer".
Proof.
  destruct (ondragend_clears sampleEndAttached) as (s' & H1 & H2 & H3 & H4 & _).
  - intros p h Hp Hh. vm_compute in Hp, Hh.
    injection Hp as <-. injection Hh as <-. vm_compute. reflexivity.
  - exists s'. repeat split; assumption.
Defined.

(** C5: every drag end is to empty the session's zones, call the dragEnd
    hook and restore the cursor.  The guard before [removeChild] tests that
    the element has a parent and that a helper is set, not that the helper
    is a child of that parent: when it is not, [removeChild] throws, and
    the handler ends with the session's zones as they were, no hook called
    and the cursor as it was. *)
Lemma ondragend_stale_helper :
  ondragend sampleEndStale = Throw NotFoundError sampleEndStale
  /\ allowedDropZones (dragDropService (final (ondragend sampleEndStale)))
     = ["x"]
  /\ calls (final (ondragend sampleEndStale)) = []
  /\ cursorOf (document (final (ondragend sampleEndStale))) !! 3
     = Some "grabbing".
Proof. vm_compute. repeat split. Qed.

(** That state is reached by the handlers themselves: a drag end that
    removed the helper leaves the field set, and the end of the next drag
    throws. *)
Example ondragend_twice :
  exists s1 s2,
    ondragend sampleEndAttached = Done None s1
    /\ ondragstart s1 = Done None s2
    /\ allowedDropZones (dragDropService s2) = ["x"]
    /\ ondragend s2 = Throw NotFoundError s2.
Proof.
  eexists. eexists. split; [reflexivity|]. split; [reflexivity|].
  split; [reflexivity|]. vm_compute. reflexivity.
Qed.

(** C8, as the code has it: on a drag end, a helper that is a child of the
    element's parent is removed from that parent, and no other element
    moves; when the element has no parent, no element is removed. *)
Theorem ondragend_removes_helper (s : State) (h : node) :
  dragHelper (this s) = Some h ->
  (forall p,
     DOM.parentElement (document s) (element (this s)) = Some p ->
     DOM.parentElement (document s) h = Some p ->
     exists s',
       ondragend s = Done None s'
       /\ DOM.parentElement (document s') h = None
       /\ forall n, n <> h ->
            DOM.parentElement (document s') n
            = DOM.parentElement (document s) n)
  /\ (DOM.parentElement (document s) (element (this s)) = None ->
      exists s',
        ondragend s = Done None s'
        /\ parentOf (document s') = parentOf (document s)).
Proof.
  intros Hh. split.
  - intros p Hp Hchild. rewrite ondragend_run, Hp, Hh.
    unfold DOM.removeChild. rewrite decide_True by done.
    eexists. split; [reflexivity|]. cbn. unfold DOM.parentElement. cbn.
    split; [apply lookup_delete_eq|].
    intros n Hn. by apply lookup_delete_ne.
  - intros Hnone. rewrite ondragend_run, Hnone.
    eexists. split; reflexivity.
Qed.

Lemma ondragend_removes_helper_witness :
  exists s',
    ondragend sampleEndAttached = Done None s'
    /\ DOM.parentElement (document s') 2 = None.
Proof.
  destruct (ondragend_removes_helper sampleEndAttached 2 eq_refl) as [H _].
  destruct (H 0) as (s' & Hrun & Hgone & _).
  - vm_compute. reflexivity.
  - vm_compute. reflexivity.
  - exists s'. split; assumption.
Defined.

(** C8, as the claim has it, fails when the element has no parent: the
    helper is set and attached, the handler returns, and the helper is
    still where it was. *)
Lemma ondragend_orphan_keeps_helper :
  dragHelper (this sampleEndOrphan) = Some 2
  /\ DOM.parentElement (document sampleEndOrphan)
       (element (this sampleEndOrphan)) = None
  /\ DOM.parentElement (document sampleEndOrphan) 2 = Some 0
  /\ exists s',
       ondragend sampleEndOrphan = Done None s'
       /\ DOM.parentElement (document s') 2 = Some 0.
Proof.
  split; [reflexivity|]. split; [vm_compute; reflexivity|].
  split; [vm_compute; reflexivity|].
  eexists. split; [reflexivity|]. vm_compute. reflexivity.
Qed.

(** ** The target side *)

Lemma ondragenter_run (s : State) :
  ondragenter s
  = Done None
      (if allowed s
       then set_calls (calls s ++ [Called DragEnterCallback (event s)]) s
       else s).
Proof. run. fold (allowed s). by destruct (allowed s). Qed.

Lemma ondragleave_run (s : State) :
  ondragleave s
  = Done None
      (if allowed s
       then set_calls (calls s ++ [Called DragLeaveCallback (event s)]) s
       else s).
Proof. run. fold (allowed s). by destruct (allowed s). Qed.

Lemma dragOver_run (s : State) :
  dragOver s
  = Done tt
      (if allowed s
       then set_calls
              (calls s ++ [Called DragOverCallback (DOM.prevented (event s))])
              (set_event (DOM.prevented (event s)) s)
       else s).
Proof. run. fold (allowed s). by destruct (allowed s). Qed.

Lemma ondrop_run (s : State) :
  ondrop s
  = Done None
      (if allowed s
       then set_calls
              (calls s
               ++ [Called DropCallback (DOM.stopped (DOM.prevented (event s)));
                   Scheduled RefreshTask 250])
              (set_timers (timers s ++ [refreshTimer (clock s)])
                 (set_event (DOM.stopped (DOM.prevented (event s))) s))
       else s).
Proof.
  run. fold (allowed s). destruct (allowed s); [|reflexivity].
  cbn. by rewrite <- app_assoc.
Qed.

Lemma ondragover_run (s : State) :
  ondragover s
  = match dragOver s with
    | Done _ s1 =>
        Done (Some false)
          (match dataTransfer (event s1) with
           | Some t =>
               set_event
                 (DOM.withDataTransfer (dragOverTransfer (this s1) t) (event s1))
                 s1
           | None => s1
           end)
    | Throw e s1 => Throw e s1
    end.
Proof.
  unfold ondragover. unfold bind at 1.
  destruct (dragOver s) as [[] s1|e s1]; [|reflexivity].
  destruct s1 as [d svc dom v [tg [t|] dp ps] now tm cl]; reflexivity.
Qed.

(** C7: each of the four target-side handlers calls its hook once when the
    filter allows the event and not at all otherwise, and calls no other
    hook.  A drop the filter allows has its default action suppressed and
    its propagation stopped, then the drop hook is called, then the refresh
    is scheduled; a drop it refuses changes nothing. *)
Theorem target_hooks_gated (s : State) :
  (exists s',
     ondragenter s = Done None s'
     /\ calls s' = calls s ++ (if allowed s
                               then [Called DragEnterCallback (event s)]
                               else []))
  /\ (exists s',
        ondragover s = Done (Some false) s'
        /\ calls s' = calls s ++ (if allowed s
                                  then [Called DragOverCallback
                                          (DOM.prevented (event s))]
                                  else []))
  /\ (exists s',
        ondragleave s = Done None s'
        /\ calls s' = calls s ++ (if allowed s
                                  then [Called DragLeaveCallback (event s)]
                                  else []))
  /\ ondrop s
     = Done None
         (if allowed s
          then set_calls
                 (calls s
                  ++ [Called DropCallback
                        (DOM.stopped (DOM.prevented (event s)));
                      Scheduled RefreshTask 250])
                 (set_timers (timers s ++ [refreshTimer (clock s)])
                    (set_event (DOM.stopped (DOM.prevented (event s))) s))
          else s)
  /\ defaultPrevented (DOM.stopped (DOM.prevented (event s))) = true
  /\ propagationStopped (DOM.stopped (DOM.prevented (event s))) = true.
Proof.
  split; [|split; [|split; [|split; [|split]]]].
  - rewrite ondragenter_run. eexists. split; [reflexivity|].
    destruct (allowed s); cbn; [done|by rewrite app_nil_r].
  - rewrite ondragover_run, dragOver_run. eexists. split; [reflexivity|].
    destruct (allowed s); cbn.
    + by destruct (dataTransfer (event s)).
    + rewrite app_nil_r. by destruct (dataTransfer (event s)).
  - rewrite ondragleave_run. eexists. split; [reflexivity|].
    destruct (allowed s); cbn; [done|by rewrite app_nil_r].
  - apply ondrop_run.
  - reflexivity.
  - reflexivity.
Qed.

(** The scenario of the specification on the target: a drop on an element
    in zone x during a drag offering zone x. *)
Example ondrop_accepted :
  exists s',
    ondrop sampleDropAccepted = Done None s'
    /\ defaultPrevented (event s') = true
    /\ propagationStopped (event s') = true
    /\ calls s'
       = [Called DropCallback
            (DOM.stopped (DOM.prevented (sampleEvent (Some sampleTransfer))));
          Scheduled RefreshTask 250]
    /\ timers s' = [{| due := 1250; task := RefreshTask |}].
Proof. eexists. repeat split. Qed.

Example ondrop_refused :
  ondrop sampleDropRefused = Done None sampleDropRefused.
Proof. reflexivity. Qed.

(** C10: on every drag over, whatever the filter answers, the handler
    returns false and, when the event carries a dataTransfer, sets its drop
    effect to the configured name and its text data; the directive, the
    session, the document, the view and the timers stay as they were.  The
    hook is called and the default action suppressed by the method only
    when the filter allows. *)
Theorem ondragover_native_effects (s : State) :
  exists s',
    ondragover s = Done (Some false) s'
    /\ dataTransfer (event s')
       = dragOverTransfer (this s) <$> dataTransfer (event s)
    /\ dropEffect <$> dataTransfer (event s')
       = (fun _ => cfgDropEffectName (config (this s)))
         <$> dataTransfer (event s)
    /\ (fun t => data t !! "text") <$> dataTransfer (event s')
       = (fun _ => Some "") <$> dataTransfer (event s)
    /\ this s' = this s
    /\ dragDropService s' = dragDropService s
    /\ document s' = document s
    /\ cdr s' = cdr s
    /\ timers s' = timers s
    /\ clock s' = clock s
    /\ calls s' = calls s ++ (if allowed s
                              then [Called DragOverCallback
                                      (DOM.prevented (event s))]
                              else [])
    /\ defaultPrevented (event s') = allowed s || defaultPrevented (event s)
    /\ propagationStopped (event s') = propagationStopped (event s)
    /\ evTarget (event s') = evTarget (event s).
Proof.
  rewrite ondragover_run, dragOver_run. eexists. split; [reflexivity|].
  destruct s as [d svc dom v [tg [t|] dp ps] now tm cl];
    unfold allowed; cbn;
    destruct (isDropAllowedOf _ _ _); cbn;
    rewrite ?app_nil_r, ?lookup_insert_eq; repeat split.
Qed.

(** A drag over an element the filter refuses: the transfer is written
    all the same. *)
Example ondragover_refused :
  allowed sampleDropRefused = false
  /\ exists s',
       ondragover sampleDropRefused = Done (Some false) s'
       /\ calls s' = []
       /\ defaultPrevented (event s') = false
       /\ dataTransfer (event s')
          = Some {| dropEffect := "move"; files := None;
                    data := {[ "text" := "" ]} |}.
Proof.
  split; [reflexivity|]. eexists. split; [reflexivity|].
  repeat split.
Qed.

(** ** The deferred refresh *)

Lemma takeDue_due (now : nat) (l : list Timer) (t : Timer) (rest : list Timer) :
  takeDue now l = Some (t, rest) -> (due t <= now)%nat /\ t ∈ l.
Proof.
  revert t rest. induction l as [|u l IH]; intros t rest; simpl; [done|].
  destruct (isDue now u) eqn:Hdue.
  - intros [= <- <-]. split; [|left].
    unfold isDue in Hdue. by apply Nat.leb_le.
  - destruct (takeDue now l) as [[t' rest']|]; [|done].
    intros [= <- <-]. destruct (IH t' rest' eq_refl). split; [done|by right].
Qed.

(** The loop runs a timer no earlier than it is due. *)
Lemma loop_fire_due (s1 s2 : State) (t : Timer) :
  loop s1 (Some t) s2 -> (due t <= clock s1)%nat.
Proof.
  inversion 1 as [|? ? rest Htake]; subst.
  by apply takeDue_due in Htake as [? _].
Qed.

Lemma refreshTask_run (s : State) :
  refreshTask s
  = Done tt
      (match cdr s with
       | Some v =>
           if destroyed v then s
           else set_cdr (Some {| destroyed := destroyed v;
                                 refreshes := S (refreshes v) |}) s
       | None => s
       end).
Proof.
  unfold refreshTask, bind, gets, ret, DOM.cdr_detectChanges.
  destruct (cdr s) as [v|]; [|reflexivity].
  by destruct (destroyed v).
Qed.

(** C9: a drop the filter allows leaves the view untouched and queues the
    refresh 250 ms ahead; the event loop, which takes only timers that are
    due, runs it no earlier than that, so never at the time of the drop.
    When the task runs, it refreshes the view if the view is there and not
    destroyed, and otherwise returns without an error and without any
    change. *)
Theorem refresh_deferred (s : State) :
  (exists s',
     ondrop s = Done None s'
     /\ cdr s' = cdr s
     /\ clock s' = clock s
     /\ timers s' = timers s ++ (if allowed s
                                 then [refreshTimer (clock s)] else [])
     /\ isDue (clock s') (refreshTimer (clock s)) = false)
  /\ (forall now : nat,
        isDue now (refreshTimer (clock s)) = (clock s + 250 <=? now)%nat)
  /\ (forall s1 s2 : State,
        loop s1 (Some (refreshTimer (clock s))) s2 ->
        (clock s + 250 <= clock s1)%nat)
  /\ runTask RefreshTask s
     = Done tt
         (match cdr s with
          | Some v =>
              if destroyed v then s
              else set_cdr (Some {| destroyed := false;
                                    refreshes := S (refreshes v) |}) s
          | None => s
          end).
Proof.
  split; [|split; [|split]].
  - rewrite ondrop_run. eexists. split; [reflexivity|].
    destruct (allowed s); cbn; rewrite ?app_nil_r; repeat split;
      unfold isDue; cbn; apply Nat.leb_gt; lia.
  - reflexivity.
  - intros s1 s2 H. by apply loop_fire_due in H.
  - unfold runTask. rewrite refreshTask_run.
    destruct (cdr s) as [[[] n]|]; reflexivity.
Qed.

(** The refresh of the sample drop: not run by the loop at the time of the
    drop, run 250 ms later; on a destroyed view it does nothing. *)
Example refresh_runs_later :
  exists s',
    ondrop sampleDropAccepted = Done None s'
    /\ takeDue (clock s') (timers s') = None
    /\ takeDue (clock s' + 250) (timers s')
       = Some (refreshTimer 1000, [])
    /\ cdr (final (runTask RefreshTask s'))
       = Some {| destroyed := false; refreshes := 1 |}.
Proof. eexists. repeat split. Qed.

Example refresh_on_destroyed_view :
  runTask RefreshTask sampleDestroyed = Done tt sampleDestroyed.
Proof. reflexivity. Qed.

(** ** The scenario of the specification *)

(** A drag from A to B: the start offers zone x, the drag over B and the
    drop on B call B's hooks, the drop schedules the refresh, and the end
    on A empties the zones. *)
Example scenario :
  dispatch ondragstart (sampleEvent (Some sampleTransfer)) scenarioStart
  = Done None scenarioStarted
  /\ allowedDropZones (dragDropService scenarioStarted) = ["x"]
  /\ dispatch ondragover (sampleEvent (Some sampleTransfer))
       (set_this scenarioB scenarioStarted) = Done (Some false) scenarioOver
  /\ defaultPrevented (event scenarioOver) = true
  /\ dispatch ondrop (sampleEvent (Some sampleTransfer)) scenarioOver
     = Done None scenarioDropped
  /\ hooksOf (calls scenarioDropped)
     = [DragStartCallback; DragOverCallback; DropCallback]
  /\ timers scenarioDropped = [refreshTimer 1000]
  /\ dispatch ondragend (sampleEvent None) (set_this scenarioA scenarioDropped)
     = Done None scenarioEnded
  /\ allowedDropZones (dragDropService scenarioEnded) = [].
Proof. repeat split; vm_compute; reflexivity. Qed.

(** * Further properties of the class *)

(** ** Pointer down and drag start *)

(** An element contains itself, whatever the document. *)
Lemma contains_refl (d : Dom) (a : node) : DOM.contains d a (Some a) = true.
Proof.
  unfold DOM.contains. destruct (size (parentOf d)); simpl;
    by rewrite decide_True.
Qed.

(** X1: with a handle set and dragging enabled, a pointer down followed by
    a drag start records the origin of the pointer down, whatever was
    recorded before, and the drag start is honoured exactly when the handle
    contains that origin: then the hook is called and the session's zones
    become the element's; otherwise the default action is suppressed and
    the zones stay. *)
Theorem ondragstart_after_mousedown (s : State) (h : node)
    (down start : Event) :
  dragHandle (this s) = Some h ->
  dragEnabled (this s) = true ->
  exists s',
    (dispatch onmousedown down ;;; dispatch ondragstart start) s
    = Done None s'
    /\ target (this s') = evTarget down
    /\ calls s'
       = calls s ++ (if DOM.contains (document s) h (evTarget down)
                     then [Called DragStartCallback start] else [])
    /\ allowedDropZones (dragDropService s')
       = (if DOM.contains (document s) h (evTarget down)
          then dropZones (this s)
          else allowedDropZones (dragDropService s))
    /\ defaultPrevented (event s')
       = negb (DOM.contains (document s) h (evTarget down))
         || defaultPrevented start.
Proof.
  intros Hh Hen.
  unfold dispatch, onmousedown, ondragstart.
  cbv beta iota zeta delta [bind gets modify ret].
  cbn [this set_this set_event set_target dragHandle _dragHandle document
       target event].
  unfold dragHandle in Hh. rewrite Hh.
  cbn [this set_this set_event set_target document target].
  destruct (DOM.contains (document s) h (evTarget down)); cbn [negb].
  - match goal with
    | |- context [ondragstart_started ?st] =>
        rewrite (ondragstart_started_run st) by exact Hen
    end.
    eexists. split; [reflexivity|]. cbn.
    repeat split. by destruct (dataTransfer start).
  - eexists. split; [reflexivity|]. cbn. rewrite app_nil_r. done.
Qed.

Lemma ondragstart_after_mousedown_witness :
  exists s',
    (dispatch onmousedown (sampleEvent None)
     ;;; dispatch ondragstart (sampleEvent None)) sampleStartInside
    = Done None s'
    /\ target (this s') = Some 1
    /\ calls s' = []
    /\ defaultPrevented (event s') = true.
Proof.
  destruct (ondragstart_after_mousedown sampleStartInside 3
              (sampleEvent None) (sampleEvent None) eq_refl eq_refl)
    as (s' & Hrun & Htarget & Hcalls & _ & Hprev).
  exists s'. split; [exact Hrun|]. split; [exact Htarget|].
  split; [exact Hcalls|exact Hprev].
Defined.

(** X2: a drag start that passes the handle test on an element with
    dragging disabled starts nothing: the session and the calls stay as
    they were and the default action is not suppressed; the text data of
    the transfer is written all the same. *)
Theorem ondragstart_disabled (s : State) :
  dragEnabled (this s) = false ->
  dragHandle (this s) = None
  \/ (exists h, dragHandle (this s) = Some h
                /\ DOM.contains (document s) h (target (this s)) = true) ->
  exists s',
    ondragstart s = Done None s'
    /\ dragDropService s' = dragDropService s
    /\ calls s' = calls s
    /\ this s' = this s
    /\ defaultPrevented (event s') = defaultPrevented (event s)
    /\ dataTransfer (event s')
       = DOM.setData "text" "" <$> dataTransfer (event s).
Proof.
  intros Hdis Hhandle. rewrite (ondragstart_honoured s Hhandle).
  run. rewrite Hdis.
  destruct s as [d svc dom v [tg [t|] dp ps] now tm cl];
    eexists; (split; [reflexivity|]); repeat split.
Qed.

Lemma ondragstart_disabled_witness :
  exists s',
    ondragstart sampleStartDisabled = Done None s'
    /\ allowedDropZones (dragDropService s') = []
    /\ calls s' = []
    /\ dataTransfer (event s')
       = Some {| dropEffect := "none"; files := None;
                 data := {[ "text" := "" ]} |}.
Proof.
  destruct (ondragstart_disabled sampleStartDisabled eq_refl)
    as (s' & Hrun & Hsvc & Hcalls & _ & _ & Hdt).
  - right. exists 3. split; [reflexivity|]. vm_compute. reflexivity.
  - exists s'. split; [exact Hrun|]. rewrite Hsvc, Hcalls, Hdt.
    repeat split.
Defined.

(** ** The dragEnabled accessor *)

(** X3: the setter of dragEnabled keeps the field and the element's
    draggable attribute equal to the value given; the last of two calls
    wins, and no other element, no parent, no cursor and nothing of the
    session changes. *)
Theorem set_dragEnabled_syncs (v1 v2 : bool) (s : State) :
  exists s',
    (set_dragEnabled v1 ;;; set_dragEnabled v2) s = Done tt s'
    /\ set_dragEnabled v2 s = Done tt s'
    /\ dragEnabled (this s') = v2
    /\ draggableOf (document s') !! element (this s) = Some v2
    /\ (forall n, n <> element (this s) ->
         draggableOf (document s') !! n = draggableOf (document s) !! n)
    /\ parentOf (document s') = parentOf (document s)
    /\ cursorOf (document s') = cursorOf (document s)
    /\ dragDropService s' = dragDropService s
    /\ dropZones (this s') = dropZones (this s).
Proof.
  eexists. split; [|split; [reflexivity|]].
  - unfold set_dragEnabled, DOM.setDraggable.
    cbv beta iota zeta delta [bind gets modify ret].
    cbn. by rewrite insert_insert_eq.
  - cbn. split; [reflexivity|]. split; [apply lookup_insert_eq|].
    split; [|done]. intros n Hn. by apply lookup_insert_ne.
Qed.

(** ** Zones *)

Lemma anyZoneMatches_refl (l : list string) :
  l <> [] -> anyZoneMatches l l = true.
Proof.
  intros Hne. apply anyZoneMatches_spec.
  destruct l as [|z l]; [done|]. exists z. split; left.
Qed.

(** X4: an element that is source and target at once accepts its own drag:
    after a drag start it honours, with dropping enabled, a drag active and
    no predicate, the filter allows, whatever the element's zones are. *)
Theorem own_drag_allowed (s : State) :
  dragEnabled (this s) = true ->
  dragHandle (this s) = None
  \/ (exists h, dragHandle (this s) = Some h
                /\ DOM.contains (document s) h (target (this s)) = true) ->
  dropEnabled (this s) = true ->
  isDragged (dragDropService s) = true ->
  allowDrop (this s) = None ->
  exists s', ondragstart s = Done None s' /\ allowed s' = true.
Proof.
  intros Hen Hhandle Hdrop Hdrag Hpred.
  rewrite (ondragstart_honoured s Hhandle), (ondragstart_started_run s Hen).
  eexists. split; [reflexivity|].
  unfold allowed. rewrite isDropAllowedOf_zones by done.
  cbn. destruct (dropZones (this s)) as [|z l] eqn:E; [reflexivity|].
  rewrite anyZoneMatches_refl by done. apply orb_true_r.
Qed.

Lemma own_drag_allowed_witness :
  exists s', ondragstart sampleBoth = Done None s' /\ allowed s' = true.
Proof.
  apply own_drag_allowed; try reflexivity. left. reflexivity.
Defined.

(** X5: without a predicate, zones on one side only are a mismatch: an
    element with no zones refuses a drag that offers zones, and an element
    with zones refuses a drag that offers none. *)
Theorem isDropAllowed_one_side_empty (d : AbstractDirective)
    (svc : DragDropService) (e : Event) :
  allowDrop d = None ->
  (dropZones d = [] /\ allowedDropZones svc <> [])
  \/ (dropZones d <> [] /\ allowedDropZones svc = []) ->
  isDropAllowedOf d svc e = false.
Proof.
  intros Hpred Hside. unfold isDropAllowedOf. rewrite Hpred.
  destruct ((isDragged svc || carriesFiles e) && dropEnabled d); [|done].
  destruct Hside as [[Hown Hel]|[Hown Hel]].
  - rewrite Hown. destruct (allowedDropZones svc) as [|z l]; [done|].
    cbn -[anyZoneMatches]. apply not_true_is_false.
    intros (z' & _ & Hin)%anyZoneMatches_spec. by apply elem_of_nil in Hin.
  - rewrite Hel. by destruct (dropZones d).
Qed.

Lemma isDropAllowed_one_side_empty_witness :
  isDropAllowedOf (sampleTarget true [] None) (sampleSession true ["x"])
    (sampleEvent None) = false.
Proof.
  apply isDropAllowed_one_side_empty; [reflexivity|].
  left. split; [reflexivity|discriminate].
Defined.

(** X6: after a drag end that returns, an element without a predicate, with
    dropping enabled, is allowed by the filter exactly when it has no zones
    of its own, as long as the session is still marked active. *)
Theorem after_dragend_only_unzoned (s : State) (d : AbstractDirective)
    (e : Event) :
  helperRemovable s ->
  dropEnabled d = true ->
  allowDrop d = None ->
  isDragged (dragDropService s) = true ->
  exists s',
    ondragend s = Done None s'
    /\ isDropAllowedOf d (dragDropService s') e
       = (length (dropZones d) =? 0)%nat.
Proof.
  intros Hrem Hdrop Hpred Hdrag. rewrite ondragend_run.
  destruct (removal_returns s Hrem) as (s1 & -> & _ & Hsvc & _).
  eexists. split; [reflexivity|].
  rewrite isDropAllowedOf_zones; cbn; rewrite ?Hsvc; try done.
  rewrite andb_true_r. by destruct (dropZones d).
Qed.

Lemma after_dragend_only_unzoned_witness :
  exists s',
    ondragend sampleEndAttached = Done None s'
    /\ isDropAllowedOf scenarioB (dragDropService s') (sampleEvent None)
       = false.
Proof.
  destruct (after_dragend_only_unzoned sampleEndAttached scenarioB
              (sampleEvent None)) as (s' & Hrun & Hverdict);
    try reflexivity.
  - intros p h Hp Hh. vm_compute in Hp, Hh.
    injection Hp as <-. injection Hh as <-. vm_compute. reflexivity.
  - exists s'. split; [exact Hrun|exact Hverdict].
Defined.

(** ** Drag end and the helper *)

(** X7: a drag end throws exactly when the element has a parent and a
    helper is set that is not a child of that parent; it then throws
    NotFoundError with the state untouched.  In every other state it
    returns. *)
Theorem ondragend_throws_exactly (s : State) :
  (helperRemovable s /\ exists s', ondragend s = Done None s')
  \/ (~ helperRemovable s /\ ondragend s = Throw NotFoundError s).
Proof.
  rewrite ondragend_run. unfold helperRemovable.
  destruct (DOM.parentElement (document s) (element (this s))) as [p|] eqn:Hp;
    [|left; split; [done|by eexists]].
  destruct (dragHelper (this s)) as [h|] eqn:Hh;
    [|left; split; [done|by eexists]].
  unfold DOM.removeChild.
  destruct (decide (DOM.parentElement (document s) h = Some p)) as [Hc|Hc].
  - left. split; [|by eexists]. by intros ? ? [= <-] [= <-].
  - right. split; [|reflexivity]. intros Hrem. by apply Hc, Hrem.
Qed.

(** X8: the class never resets the helper field.  After a drag end that
    removed a helper other than the element itself, the field still names
    it, and the next drag end throws NotFoundError. *)
Theorem ondragend_second_throws (s : State) (p h : node) :
  DOM.parentElement (document s) (element (this s)) = Some p ->
  dragHelper (this s) = Some h ->
  DOM.parentElement (document s) h = Some p ->
  h <> element (this s) ->
  exists s',
    ondragend s = Done None s'
    /\ dragHelper (this s') = Some h
    /\ ondragend s' = Throw NotFoundError s'.
Proof.
  intros Hp Hh Hc Hne. rewrite ondragend_run, Hp, Hh.
  unfold DOM.removeChild. rewrite decide_True by done.
  eexists. split; [reflexivity|]. split; [exact Hh|].
  rewrite ondragend_run. cbn. unfold DOM.parentElement. cbn.
  rewrite lookup_delete_ne by done. fold (DOM.parentElement (document s)
                                            (element (this s))).
  rewrite Hp, Hh. unfold DOM.removeChild, DOM.parentElement. cbn.
  rewrite lookup_delete_eq. by rewrite decide_False.
Qed.

Lemma ondragend_second_throws_witness :
  exists s',
    ondragend sampleEndAttached = Done None s'
    /\ ondragend s' = Throw NotFoundError s'.
Proof.
  destruct (ondragend_second_throws sampleEndAttached 0 2)
    as (s' & Hrun & _ & Hthrow).
  - vm_compute. reflexivity.
  - reflexivity.
  - vm_compute. reflexivity.
  - discriminate.
  - exists s'. split; [exact Hrun|exact Hthrow].
Defined.

(** X9: a drag end that returns sets one cursor only, that of the handle
    when there is one: every other element keeps its cursor, so with a
    handle the element itself is not restored, and no draggable attribute
    changes. *)
Theorem ondragend_cursor_frame (s : State) :
  helperRemovable s ->
  exists s',
    ondragend s = Done None s'
    /\ (forall n, n <> cursorElem (this s) ->
         cursorOf (document s') !! n = cursorOf (document s) !! n)
    /\ (forall h, _dragHandle (this s) = Some h -> h <> element (this s) ->
         cursorOf (document s') !! element (this s)
         = cursorOf (document s) !! element (this s))
    /\ draggableOf (document s') = draggableOf (document s).
Proof.
  intros Hrem. rewrite ondragend_run.
  assert (exists s1,
    (match DOM.parentElement (document s) (element (this s)),
           dragHelper (this s) with
     | Some p, Some h => DOM.removeChild p h
     | _, _ => ret tt
     end) s = Done tt s1
    /\ this s1 = this s
    /\ cursorOf (document s1) = cursorOf (document s)
    /\ draggableOf (document s1) = draggableOf (document s))
    as (s1 & -> & Hthis & Hcur & Hdrag).
  { unfold helperRemovable in Hrem.
    destruct (DOM.parentElement _ _) as [p|]; [|by exists s].
    destruct (dragHelper _) as [h|]; [|by exists s].
    unfold DOM.removeChild. rewrite decide_True by by apply Hrem.
    eexists. split; [reflexivity|]. done. }
  eexists. split; [reflexivity|]. cbn. rewrite Hthis, Hcur, Hdrag.
  split; [|split; [|done]].
  - intros n Hn. by apply lookup_insert_ne.
  - intros h Hh Hne. apply lookup_insert_ne.
    unfold cursorElem. by rewrite Hh.
Qed.

Lemma ondragend_cursor_frame_witness :
  exists s',
    ondragend sampleEndAttached = Done None s'
    /\ cursorOf (document s') !! 1 = Some "move".
Proof.
  destruct (ondragend_cursor_frame sampleEndAttached)
    as (s' & Hrun & _ & Helem & _).
  - intros p h Hp Hh. vm_compute in Hp, Hh.
    injection Hp as <-. injection Hh as <-. vm_compute. reflexivity.
  - exists s'. split; [exact Hrun|].
    transitivity (cursorOf (document sampleEndAttached) !! 1).
    + apply (Helem 3 eq_refl). discriminate.
    + vm_compute. reflexivity.
Defined.

(** ** The target side, over several events *)

(** The filter looks at the event only for its file list. *)
Lemma isDropAllowedOf_files (d : AbstractDirective) (svc : DragDropService)
    (e e' : Event) :
  carriesFiles e' = carriesFiles e ->
  isDropAllowedOf d svc e' = isDropAllowedOf d svc e.
Proof. intros H. unfold isDropAllowedOf. by rewrite H. Qed.

Lemma carriesFiles_dragOverTransfer (d : AbstractDirective) (e : Event)
    (t : DataTransfer) :
  dataTransfer e = Some t ->
  carriesFiles (DOM.withDataTransfer (dragOverTransfer d t) e) = carriesFiles e.
Proof. intros H. unfold carriesFiles. by rewrite H. Qed.

(** X10: no target-side handler changes what the filter answers for the
    event it was given: the handlers write the event's flags and transfer
    data, which the filter does not read, and leave the file list, the
    session and the directive alone. *)
Theorem verdict_stable (s : State) :
  allowed (final (ondragenter s)) = allowed s
  /\ allowed (final (ondragover s)) = allowed s
  /\ allowed (final (ondragleave s)) = allowed s
  /\ allowed (final (ondrop s)) = allowed s.
Proof.
  rewrite ondragenter_run, ondragleave_run, ondrop_run, ondragover_run,
    dragOver_run.
  cbn [final]. repeat split.
  - by destruct (allowed s) eqn:E.
  - destruct (allowed s) eqn:E.
    + cbn. destruct (dataTransfer (event s)) as [t|] eqn:Ht;
        rewrite <- E; unfold allowed; cbn; apply isDropAllowedOf_files;
        unfold carriesFiles; cbn; by rewrite Ht.
    + destruct (dataTransfer (event s)) as [t|] eqn:Ht; [|exact E].
      rewrite <- E. unfold allowed. cbn. apply isDropAllowedOf_files.
      by apply carriesFiles_dragOverTransfer.
  - by destruct (allowed s) eqn:E.
  - destruct (allowed s) eqn:E; [|exact E].
    rewrite <- E. unfold allowed. cbn. by apply isDropAllowedOf_files.
Qed.

Lemma targetHandler_frame (k : TargetEvent) (s : State) :
  exists r s',
    targetHandler k s = Done r s'
    /\ this s' = this s
    /\ dragDropService s' = dragDropService s
    /\ document s' = document s
    /\ cdr s' = cdr s
    /\ clock s' = clock s
    /\ scheduledOf (calls s') + dropsOf (calls s)
       = scheduledOf (calls s) + dropsOf (calls s')
    /\ length (timers s') + scheduledOf (calls s)
       = length (timers s) + scheduledOf (calls s').
Proof.
  destruct k; cbn [targetHandler].
  - rewrite ondragenter_run. do 2 eexists. split; [reflexivity|].
    destruct (allowed s); cbn; unfold scheduledOf, dropsOf;
      rewrite ?List.filter_app, ?length_app; cbn; repeat split; lia.
  - rewrite ondragover_run, dragOver_run. do 2 eexists.
    split; [reflexivity|].
    destruct (allowed s); cbn; destruct (dataTransfer (event s)); cbn;
      unfold scheduledOf, dropsOf;
      rewrite ?List.filter_app, ?length_app; cbn; repeat split; lia.
  - rewrite ondragleave_run. do 2 eexists. split; [reflexivity|].
    destruct (allowed s); cbn; unfold scheduledOf, dropsOf;
      rewrite ?List.filter_app, ?length_app; cbn; repeat split; lia.
  - rewrite ondrop_run. do 2 eexists. split; [reflexivity|].
    destruct (allowed s); cbn; unfold scheduledOf, dropsOf;
      rewrite ?List.filter_app, ?length_app; cbn; repeat split; lia.
Qed.

(** X11: whatever enter, over, leave and drop events a target receives, in
    whatever order, the handlers return, and the directive, the session,
    the document and the view are as before; the tasks given to setTimeout
    are as many as the calls of the drop hook, and each is in the queue. *)
Theorem dispatchAll_invariant (l : list (TargetEvent * Event)) (s : State) :
  exists s',
    dispatchAll l s = Done tt s'
    /\ this s' = this s
    /\ dragDropService s' = dragDropService s
    /\ document s' = document s
    /\ cdr s' = cdr s
    /\ clock s' = clock s
    /\ scheduledOf (calls s') + dropsOf (calls s)
       = scheduledOf (calls s) + dropsOf (calls s')
    /\ length (timers s') + scheduledOf (calls s)
       = length (timers s) + scheduledOf (calls s').
Proof.
  revert s. induction l as [|[k e] l IH]; intros s.
  - exists s. repeat split.
  - cbn [dispatchAll]. unfold dispatch.
    cbv beta iota zeta delta [bind modify].
    destruct (targetHandler_frame k (set_event e s))
      as (r & s1 & -> & Hthis & Hsvc & Hdoc & Hcdr & Hclock & Hdrops & Htimers).
    destruct (IH s1)
      as (s' & -> & Hthis' & Hsvc' & Hdoc' & Hcdr' & Hclock' & Hdrops' & Htimers').
    exists s'. split; [reflexivity|].
    change (this (set_event e s)) with (this s) in Hthis.
    change (dragDropService (set_event e s)) with (dragDropService s) in Hsvc.
    change (document (set_event e s)) with (document s) in Hdoc.
    change (cdr (set_event e s)) with (cdr s) in Hcdr.
    change (clock (set_event e s)) with (clock s) in Hclock.
    change (calls (set_event e s)) with (calls s) in Hdrops, Htimers.
    change (timers (set_event e s)) with (timers s) in Htimers.
    repeat split; try congruence; lia.
Qed.

(** X12: an allowed drop with nothing else queued, on a live view: once 250
    ms have passed the loop runs the refresh, which refreshes the view once
    and empties the queue; if the view is destroyed in the meantime, the
    loop runs the task all the same and the view is left as it is. *)
Theorem drop_then_refresh (s : State) (v : ViewRef) :
  allowed s = true ->
  timers s = [] ->
  cdr s = Some v ->
  destroyed v = false ->
  exists s1 s2 s3,
    ondrop s = Done None s1
    /\ loop s1 None s2
    /\ clock s2 = clock s + 250
    /\ loop s2 (Some (refreshTimer (clock s))) s3
    /\ cdr s3 = Some {| destroyed := false; refreshes := S (refreshes v) |}
    /\ timers s3 = []
    /\ loop (set_cdr (Some {| destroyed := true; refreshes := refreshes v |}) s2)
         (Some (refreshTimer (clock s)))
         (set_timers []
            (set_cdr (Some {| destroyed := true; refreshes := refreshes v |})
               s2)).
Proof.
  intros Hok Hq Hcdr Hlive. rewrite ondrop_run, Hok, Hq.
  cbv iota. cbn [app].
  eexists. exists (set_clock (clock s + 250)
                     (set_calls
                        (calls s
                         ++ [Called DropCallback
                               (DOM.stopped (DOM.prevented (event s)));
                             Scheduled RefreshTask 250])
                        (set_timers [refreshTimer (clock s)]
                           (set_event (DOM.stopped (DOM.prevented (event s)))
                              s)))).
  eexists. split; [reflexivity|]. split; [exact (loop_wait _ 250)|].
  split; [reflexivity|].
  split; [|split; [|split]].
  - apply (loop_fire _ (refreshTimer (clock s)) []).
    cbn. by rewrite Nat.leb_refl.
  - cbn [task refreshTimer]. unfold runTask. rewrite refreshTask_run.
    cbn. by rewrite Hcdr, Hlive.
  - cbn [task refreshTimer]. unfold runTask. rewrite refreshTask_run.
    cbn. rewrite Hcdr, Hlive. reflexivity.
  - match goal with
    | |- loop ?a _ _ =>
        pose proof (loop_fire a (refreshTimer (clock s)) []) as Hfire
    end.
    cbn in Hfire. rewrite Nat.leb_refl in Hfire. exact (Hfire eq_refl).
Qed.

Lemma drop_then_refresh_witness :
  exists s1 s2 s3,
    ondrop sampleDropAccepted = Done None s1
    /\ loop s1 None s2
    /\ loop s2 (Some (refreshTimer 1000)) s3
    /\ cdr s3 = Some {| destroyed := false; refreshes := 1 |}.
Proof.
  destruct (drop_then_refresh sampleDropAccepted
              {| destroyed := false; refreshes := 0 |}
              eq_refl eq_refl eq_refl eq_refl)
    as (s1 & s2 & s3 & Hdrop & Hwait & _ & Hfire & Hcdr & _).
  exists s1, s2, s3. split; [exact Hdrop|]. split; [exact Hwait|].
  split; [exact Hfire|exact Hcdr].
Defined.

(** ** A directive as constructed *)

(** X13: a directive as the constructor leaves it is no drop target and a
    source without zones: the filter refuses every event in every session,
    dragging is enabled although the element's draggable attribute was not
    written, and a drag start calls the hook and leaves the session with no
    zones. *)
Theorem constructed_defaults (el : node) (cfg : DragDropConfig) (s : State) :
  exists s',
    constructor el cfg s = Done tt s'
    /\ (forall svc e, isDropAllowedOf (this s') svc e = false)
    /\ dragEnabled (this s') = true
    /\ draggableOf (document s') = draggableOf (document s)
    /\ exists s'',
         ondragstart s' = Done None s''
         /\ allowedDropZones (dragDropService s'') = []
         /\ calls s'' = calls s ++ [Called DragStartCallback (event s)].
Proof.
  eexists. split; [reflexivity|]. split; [|split; [reflexivity|split]].
  - intros svc e. unfold isDropAllowedOf. cbn. by rewrite andb_false_r.
  - reflexivity.
  - rewrite ondragstart_honoured by (left; reflexivity).
    rewrite ondragstart_started_run by reflexivity.
    eexists. split; [reflexivity|]. split; reflexivity.
Qed.

(** ** The dragHandle accessor *)

(** X15: once a handle is set, a pointer down on the handle itself followed
    by a drag start is honoured in every document, attached or not; once
    the handle is unset, a drag start is honoured wherever the pointer went
    down.  In both cases, with dragging enabled, the session's zones
    become the element's. *)
Theorem set_dragHandle_then_start (s : State) (h : node) (down start : Event) :
  dragEnabled (this s) = true ->
  (evTarget down = Some h ->
   exists s',
     (set_dragHandle (Some h) ;;; dispatch onmousedown down
      ;;; dispatch ondragstart start) s = Done None s'
     /\ dragHandle (this s') = Some h
     /\ allowedDropZones (dragDropService s') = dropZones (this s)
     /\ calls s' = calls s ++ [Called DragStartCallback start])
  /\ exists s',
       (set_dragHandle None ;;; dispatch onmousedown down
        ;;; dispatch ondragstart start) s = Done None s'
       /\ dragHandle (this s') = None
       /\ allowedDropZones (dragDropService s') = dropZones (this s)
       /\ calls s' = calls s ++ [Called DragStartCallback start].
Proof.
  intros Hen. split; [intros Hdown|];
    unfold set_dragHandle, dispatch, onmousedown;
    cbv beta iota zeta delta [bind gets modify ret];
    match goal with
    | |- context [ondragstart ?st] =>
        rewrite (ondragstart_honoured st);
        [rewrite (ondragstart_started_run st) by exact Hen|]
    end.
  - eexists. split; [reflexivity|]. repeat split.
  - right. exists h. split; [reflexivity|]. cbn. rewrite Hdown.
    apply contains_refl.
  - eexists. split; [reflexivity|]. repeat split.
  - left. reflexivity.
Qed.

Lemma set_dragHandle_then_start_witness :
  exists s',
    (set_dragHandle (Some 1) ;;; dispatch onmousedown (sampleEvent None)
     ;;; dispatch ondragstart (sampleEvent None)) sampleStartOutside
    = Done None s'
    /\ dragHandle (this s') = Some 1
    /\ allowedDropZones (dragDropService s') = ["x"].
Proof.
  destruct (set_dragHandle_then_start sampleStartOutside 1
              (sampleEvent None) (sampleEvent None) eq_refl) as [H _].
  destruct (H eq_refl) as (s' & Hrun & Hh & Hz & _).
  exists s'. split; [exact Hrun|]. split; [exact Hh|exact Hz].
Defined.
